(** * vmchecker: bin/remote_check.py

    A shallow embedding of the [remote_check] script and the properties of
    its single function, [main].  The script copies a homework configuration
    file to a remote grading machine with [scp] and then starts a notifier
    there with [ssh].

    [main] talks to the world outside at every step: the command line, the
    helper module [misc], two configuration files, two child processes and
    the standard streams.  The embedding keeps that explicit.  A [World]
    answers every question the script asks, and running [main] in a world
    gives the trace of the events the script causes and the way it stops. *)

From Stdlib Require Import ZArith List Ascii String Bool Lia.
From stdpp Require Import base gmap strings list.

Local Open Scope Z_scope.
Local Open Scope string_scope.
Local Open Scope list_scope.

(** ** Python values and built-ins *)

Module Py.

(** The exceptions that can reach the top of the script.  [SystemExit] is
    kept apart, see [stop] below. *)
Inductive exn : Type :=
| AssertionError (msg : string)
| NoSectionError (section : string)
| NoOptionError (option section : string)
| ParsingError (filename : string)
| IndexError
| OSError
| OtherError (name : string).

(** [str.lower], on ASCII text. *)
Definition lower_ascii (c : ascii) : ascii :=
  let n := nat_of_ascii c in
  if ((65 <=? n) && (n <=? 90))%nat then ascii_of_nat (n + 32) else c.

Fixpoint lower (s : string) : string :=
  match s with
  | EmptyString => EmptyString
  | String c rest => String (lower_ascii c) (lower rest)
  end.

(** [s.startswith(p)] *)
Definition startswith (s p : string) : bool := String.prefix p s.

(** [s.endswith(c)], for a suffix of one character. *)
Fixpoint endswith_char (s : string) (c : ascii) : bool :=
  match s with
  | EmptyString => false
  | String x EmptyString => Ascii.eqb x c
  | String _ rest => endswith_char rest c
  end.

(** The truth value of a string or [None]. *)
Definition truthy (v : option string) : bool :=
  match v with
  | Some s => negb (String.eqb s EmptyString)
  | None => false
  end.

End Py.

Module os.
Module path.
Import Py.

(** [posixpath.join(a, b)]:
<<
    path = a
    if b.startswith('/'):                   path = b
    elif path == '' or path.endswith('/'):  path += b
    else:                                   path += '/' + b
    return path
>> *)
Definition join (a b : string) : string :=
  if startswith b "/" then b
  else if String.eqb a EmptyString || endswith_char a "/" then a +:+ b
  else a +:+ "/" +:+ b.

End path.
End os.

(** ** ConfigParser.RawConfigParser *)

Module ConfigParser.
Import Py.

Definition DEFAULTSECT : string := "DEFAULT".

(** The two dictionaries of a parser object.  Option names are stored
    after [optionxform], that is, in lower case. *)
Record RawConfigParser : Type := {
  _defaults : gmap string string;
  _sections : gmap string (gmap string string)
}.

(** [RawConfigParser()] *)
Definition new : RawConfigParser :=
  {| _defaults := ∅; _sections := ∅ |}.

Definition optionxform (optionstr : string) : string := lower optionstr.

(** [RawConfigParser.get(section, option)]:
<<
    opt = self.optionxform(option)
    if section not in self._sections:
        if section != DEFAULTSECT:
            raise NoSectionError(section)
        if opt in self._defaults:
            return self._defaults[opt]
        else:
            raise NoOptionError(option, section)
    elif opt in self._sections[section]:
        return self._sections[section][opt]
    elif opt in self._defaults:
        return self._defaults[opt]
    else:
        raise NoOptionError(option, section)
>> *)
Definition get (self : RawConfigParser) (section option : string)
  : exn + string :=
  let opt := optionxform option in
  match _sections self !! section with
  | None =>
      if negb (String.eqb section DEFAULTSECT) then
        inl (NoSectionError section)
      else
        match _defaults self !! opt with
        | Some v => inr v
        | None => inl (NoOptionError option section)
        end
  | Some sect =>
      match sect !! opt with
      | Some v => inr v
      | None =>
          match _defaults self !! opt with
          | Some v => inr v
          | None => inl (NoOptionError option section)
          end
      end
  end.

(** [RawConfigParser.has_option(section, option)]:
<<
    if not section or section == DEFAULTSECT:
        option = self.optionxform(option)
        return option in self._defaults
    elif section not in self._sections:
        return False
    else:
        option = self.optionxform(option)
        return (option in self._sections[section]
                or option in self._defaults)
>> *)
Definition has_option (self : RawConfigParser) (section option : string)
  : bool :=
  if String.eqb section EmptyString || String.eqb section DEFAULTSECT then
    bool_decide (is_Some (_defaults self !! optionxform option))
  else
    match _sections self !! section with
    | None => false
    | Some sect =>
        bool_decide (is_Some (sect !! optionxform option))
        || bool_decide (is_Some (_defaults self !! optionxform option))
    end.

End ConfigParser.

Import Py ConfigParser.

(** ** The world outside the script *)

Inductive stream : Type := Stdout | Stderr.

(** What [RawConfigParser.read] finds under a file name: a file that cannot
    be opened is skipped silently, a file that is not in INI format makes
    [read] raise, any other file fills the dictionaries of the parser. *)
Inductive file_state : Type :=
| Unreadable
| Malformed
| Parsed (content : RawConfigParser).

(** Everything [main] observes.  The module [misc] is not among the
    sources, so its two functions belong to the world: [main] is verified
    for every answer they may give, a value or an exception.  A child
    process answers with its exit code, unless it cannot be started.  The two
    command lines of the script differ in their first word, so a world may
    answer them independently. *)
Record World : Type := {
  argv : list string;
  misc_find_config_file : string -> exn + string;
  misc_get_option : RawConfigParser -> string -> string -> exn + option string;
  files : string -> file_state;
  subprocess_call : list string -> exn + Z
}.

Definition with_argv (w : World) (args : list string) : World :=
  {| argv := args;
     misc_find_config_file := misc_find_config_file w;
     misc_get_option := misc_get_option w;
     files := files w;
     subprocess_call := subprocess_call w |}.

(** Modelled from the spec: [misc.get_option], whose module is not among
    the sources.  It "looks up (section=job, option) in the global config";
    the caller tests the answer for truth, so a lookup that fails is
    answered with [None]. *)
Definition get_option_spec (config : RawConfigParser) (section option : string)
  : exn + Datatypes.option string :=
  match get config section option with
  | inr v => inr (Some v)
  | inl _ => inr None
  end.

(** ** Events, and the monad the script runs in *)

Inductive event : Type :=
| Print (out : stream) (line : string)
| FindConfigFile (name : string)
| ReadFile (filename : string)
| Call (args : list string) (res : exn + Z).

(** The two ways to stop before the end: [sys.exit(code)], or an exception
    that nobody catches. *)
Inductive stop : Type :=
| SystemExit (code : Z)
| Uncaught (e : exn).

(** A computation yields the events it caused and either stops or returns
    a value. *)
Definition M (A : Type) : Type := list event * (stop + A).

Definition ret {A} (a : A) : M A := ([], inr a).

Definition bind {A B} (m : M A) (k : A -> M B) : M B :=
  match m with
  | (t, inl s) => (t, inl s)
  | (t, inr a) => let (t', r) := k a in (t ++ t', r)
  end.

Notation "x <- m ;; k" := (bind m (fun x => k))
  (at level 100, m at next level, right associativity).
Notation "m ;;; k" := (bind m (fun _ => k))
  (at level 100, right associativity).

Definition emit (e : event) : M unit := ([e], inr tt).

Definition raise {A} (e : exn) : M A := ([], inl (Uncaught e)).

(** The answer of a library function, as a computation. *)
Definition lift {A} (r : exn + A) : M A :=
  match r with
  | inl e => raise e
  | inr a => ret a
  end.

Definition trace {A} (m : M A) : list event := fst m.
Definition result {A} (m : M A) : stop + A := snd m.

(** The status the interpreter hands to the operating system: 0 when the
    script runs to its end, the low byte of the argument of [sys.exit], and
    1 after the traceback of an uncaught exception. *)
Definition exit_status {A} (r : stop + A) : Z :=
  match r with
  | inr _ => 0
  | inl (SystemExit code) => Z.land code 255
  | inl (Uncaught _) => 1
  end.

(** *** The statements and calls of the script *)

Module sys.

(** [sys.exit(code)] *)
Definition exit {A} (code : Z) : M A := ([], inl (SystemExit code)).

End sys.

Module misc.

(** [misc.find_config_file(name)] *)
Definition find_config_file (w : World) (name : string) : M string :=
  emit (FindConfigFile name) ;;; lift (misc_find_config_file w name).

(** [misc.get_option(config, section, option)] *)
Definition get_option (w : World) (config : RawConfigParser)
           (section option : string) : M (Datatypes.option string) :=
  lift (misc_get_option w config section option).

End misc.

Module subprocess.

(** [subprocess.call(args)] *)
Definition call (w : World) (args : list string) : M Z :=
  let res := subprocess_call w args in
  emit (Call args res) ;;; lift res.

End subprocess.

(** [print >> out, line] *)
Definition print (out : stream) (line : string) : M unit :=
  emit (Print out line).

(** [l[i]] *)
Definition index (l : list string) (i : nat) : M string :=
  match nth_error l i with
  | Some x => ret x
  | None => raise IndexError
  end.

(** [p = ConfigParser.RawConfigParser(); p.read(filename)], giving [p]. *)
Definition read (w : World) (filename : string) : M RawConfigParser :=
  emit (ReadFile filename) ;;;
  match files w filename with
  | Unreadable => ret new
  | Malformed => raise (ParsingError filename)
  | Parsed content => ret content
  end.

(** [assert v, msg], for [v] a string or [None].  What passes is a string
    that is not empty. *)
Definition assert_ (v : option string) (msg : string) : M string :=
  match v with
  | Some s => if truthy v then ret s else raise (AssertionError msg)
  | None => raise (AssertionError msg)
  end.

(** The four messages. *)
Definition usage_msg (prog : string) : string :=
  "Usage: " +:+ prog +:+ " homework_config_file".
Definition copy_failed_msg : string :=
  "Eroare la copierea temei pe masina de testare".
Definition notify_failed_msg : string :=
  "Nu am putut invoca programul de notificare".
Definition success_msg : string :=
  "Tema a fost copiata cu succes".

(** ** [main] *)

Definition main (w : World) : M unit :=
  (if (length (argv w) =? 1)%nat then
     prog <- index (argv w) 0 ;;
     print Stderr (usage_msg prog) ;;;
     sys.exit 1
   else ret tt) ;;;

  config_file <- misc.find_config_file w "vmchecker.ini" ;;

  homework_file <- index (argv w) 1 ;;
  homework <- read w homework_file ;;

  config <- read w config_file ;;

  job <- lift (get homework "DEFAULT" "Job") ;;

  v <- misc.get_option w config job "RemoteIP" ;;
  remote_ip <- assert_ v "No ip for remote machine" ;;

  v <- misc.get_option w config job "RemoteQueue" ;;
  remote_queue <- assert_ v "No queue on remote machine" ;;

  v <- misc.get_option w config job "RemoteUser" ;;
  remote_user <- assert_ v "No remote user supplied" ;;

  v <- misc.get_option w config job "RemoteNotifier" ;;
  remote_notifier <- assert_ v "No notifier supplied" ;;

  copied <- index (argv w) 1 ;;
  return_code <- subprocess.call w
                   [ "scp";
                     copied;
                     remote_user +:+ "@" +:+ remote_ip +:+ ":" +:+ remote_queue ] ;;
  (if negb (return_code =? 0)%Z then
     print Stderr copy_failed_msg ;;;
     sys.exit 1
   else ret tt) ;;;

  return_code <- subprocess.call w
                   [ "ssh";
                     remote_user +:+ "@" +:+ remote_ip;
                     os.path.join remote_queue remote_notifier ] ;;
  (if negb (return_code =? 0)%Z then
     print Stderr notify_failed_msg ;;;
     sys.exit 1
   else ret tt) ;;;

  print Stderr success_msg.

(** ** Reading a trace *)

(** The command lines handed to [subprocess.call], in order. *)
Fixpoint calls (t : list event) : list (list string) :=
  match t with
  | [] => []
  | Call args _ :: rest => args :: calls rest
  | _ :: rest => calls rest
  end.

Definition same_stream (a b : stream) : bool :=
  match a, b with
  | Stdout, Stdout | Stderr, Stderr => true
  | _, _ => false
  end.

(** The lines printed on a stream, in order. *)
Fixpoint printed (out : stream) (t : list event) : list string :=
  match t with
  | [] => []
  | Print o line :: rest =>
      if same_stream o out then line :: printed out rest else printed out rest
  | _ :: rest => printed out rest
  end.

(** The configuration files handed to [read], in order. *)
Fixpoint reads (t : list event) : list string :=
  match t with
  | [] => []
  | ReadFile filename :: rest => filename :: reads rest
  | _ :: rest => reads rest
  end.

(** A stretch of a run in which no process is started and nothing is
    printed. *)
Definition quiet (t : list event) : Prop :=
  calls t = [] /\ printed Stdout t = [] /\ printed Stderr t = [].

(** ** What the claims speak about *)

(** The four values the script needs for its job. *)
Record Remote : Type := {
  remote_ip : string;
  remote_queue : string;
  remote_user : string;
  remote_notifier : string
}.

(** None of the four values is the empty string. *)
Definition complete (r : Remote) : Prop :=
  remote_ip r <> EmptyString /\ remote_queue r <> EmptyString /\
  remote_user r <> EmptyString /\ remote_notifier r <> EmptyString.

(** The four options the script requires, in the order in which it asks for
    them. *)
Definition required : list string :=
  ["RemoteIP"; "RemoteQueue"; "RemoteUser"; "RemoteNotifier"].

(** [read] of [filename] goes through and leaves the parser as [c]. *)
Definition loads (w : World) (filename : string) (c : RawConfigParser) : Prop :=
  result (read w filename) = inr c.

(** The script is given the homework file, finds and reads the two
    configuration files, and the homework file yields [job]; [config] is
    what the global file holds. *)
Definition resolved (w : World) (homework_file job : string)
           (config : RawConfigParser) : Prop :=
  nth_error (argv w) 1 = Some homework_file /\
  exists config_file homework,
    misc_find_config_file w "vmchecker.ini" = inr config_file /\
    loads w homework_file homework /\
    loads w config_file config /\
    get homework "DEFAULT" "Job" = inr job.

(** ... and [misc.get_option] yields the four values of [r] for [job]. *)
Definition configured (w : World) (homework_file job : string) (r : Remote)
  : Prop :=
  exists config,
    resolved w homework_file job config /\
    misc_get_option w config job "RemoteIP" = inr (Some (remote_ip r)) /\
    misc_get_option w config job "RemoteQueue" = inr (Some (remote_queue r)) /\
    misc_get_option w config job "RemoteUser" = inr (Some (remote_user r)) /\
    misc_get_option w config job "RemoteNotifier"
    = inr (Some (remote_notifier r)).

(** The parser has no value but the empty string for the option in the
    section: the lookup fails, or gives the empty string. *)
Definition unset (config : RawConfigParser) (section option : string) : Prop :=
  forall v, get config section option = inr v -> v = EmptyString.

(** [DEFAULT] is never a section of its own: [read] stores what stands
    under that header in [_defaults], and [add_section] refuses the name. *)
Definition wf (c : RawConfigParser) : Prop :=
  _sections c !! DEFAULTSECT = None.

(** The script is stopped by an exception that nobody catches, the way a
    failed [assert] stops it: with a traceback, not with one of its own
    messages followed by [sys.exit]. *)
Definition aborted (m : M unit) : Prop :=
  exists e, result m = inl (Uncaught e).

(** The two command lines, as the interface section of the specification
    gives them, with the notifier joined to the queue by [os.path.join]. *)
Definition scp_command (homework_file : string) (r : Remote) : list string :=
  ["scp"; homework_file;
   remote_user r +:+ "@" +:+ remote_ip r +:+ ":" +:+ remote_queue r].

Definition ssh_command (r : Remote) : list string :=
  ["ssh"; remote_user r +:+ "@" +:+ remote_ip r;
   os.path.join (remote_queue r) (remote_notifier r)].

(** Every run of [main] has one of seven shapes: the usage error; a failure
    while the configuration is gathered; for each of the two child processes,
    a failure to start it and a non-zero exit code; success. *)
Inductive Run (w : World) : M unit -> Prop :=
| RunUsage prog :
    argv w = [prog] ->
    Run w ([Print Stderr (usage_msg prog)], inl (SystemExit 1))
| RunAbort pre e :
    quiet pre ->
    Run w (pre, inl (Uncaught e))
| RunScpRaised pre a e :
    quiet pre ->
    Run w (pre ++ [Call ("scp" :: a) (inl e)], inl (Uncaught e))
| RunScpFailed pre a rc :
    quiet pre -> rc <> 0 ->
    Run w (pre ++ [Call ("scp" :: a) (inr rc); Print Stderr copy_failed_msg],
           inl (SystemExit 1))
| RunSshRaised pre a b e :
    quiet pre ->
    Run w (pre ++ [Call ("scp" :: a) (inr 0); Call ("ssh" :: b) (inl e)],
           inl (Uncaught e))
| RunSshFailed pre a b rc :
    quiet pre -> rc <> 0 ->
    Run w (pre ++ [Call ("scp" :: a) (inr 0); Call ("ssh" :: b) (inr rc);
                   Print Stderr notify_failed_msg],
           inl (SystemExit 1))
| RunSuccess pre a b :
    quiet pre ->
    Run w (pre ++ [Call ("scp" :: a) (inr 0); Call ("ssh" :: b) (inr 0);
                   Print Stderr success_msg],
           inr tt).

(** ** A concrete deployment: job [hw1] *)

Module Hw1.

Definition homework : RawConfigParser :=
  {| _defaults := {[ "job" := "hw1" ]}; _sections := ∅ |}.

Definition remote : Remote :=
  {| remote_ip := "10.0.0.5";
     remote_queue := "/srv/queue";
     remote_user := "grader";
     remote_notifier := "notify.sh" |}.

Definition options (notifier : string) : gmap string string :=
  <[ "remoteip" := "10.0.0.5" ]>
    (<[ "remoteuser" := "grader" ]>
       (<[ "remotequeue" := "/srv/queue" ]>
          {[ "remotenotifier" := notifier ]})).

Definition config (notifier : string) : RawConfigParser :=
  {| _defaults := ∅; _sections := {[ "hw1" := options notifier ]} |}.

(** A world with the homework file [hw.ini], the global file found at
    [/etc/vmchecker.ini], [misc.get_option] as the specification describes
    it, and the given answers of [scp] and [ssh]. *)
Definition world (args : list string) (hw cfg : file_state) (scp ssh : exn + Z)
  : World :=
  {| argv := args;
     misc_find_config_file := fun _ => inr "/etc/vmchecker.ini";
     misc_get_option := get_option_spec;
     files := fun filename =>
                if String.eqb filename "hw.ini" then hw
                else if String.eqb filename "/etc/vmchecker.ini" then cfg
                else Unreadable;
     subprocess_call := fun args =>
                          match args with
                          | "scp" :: _ => scp
                          | "ssh" :: _ => ssh
                          | _ => inl OSError
                          end |}.

(** The scenario of the specification, with the exit codes of the two
    processes. *)
Definition std (scp ssh : Z) : World :=
  world ["remote_check.py"; "hw.ini"]
        (Parsed homework) (Parsed (config "notify.sh")) (inr scp) (inr ssh).

Definition scp_args : list string := ["hw.ini"; "grader@10.0.0.5:/srv/queue"].
Definition ssh_args : list string := ["grader@10.0.0.5"; "/srv/queue/notify.sh"].

(** The global file has no [RemoteQueue] for [hw1]. *)
Definition no_queue : RawConfigParser :=
  {| _defaults := ∅;
     _sections := {[ "hw1" := delete "remotequeue" (options "notify.sh") ]} |}.

Definition no_queue_world : World :=
  world ["remote_check.py"; "hw.ini"]
        (Parsed homework) (Parsed no_queue) (inr 0) (inr 0).

(** The homework file names a course but no job. *)
Definition no_job : RawConfigParser :=
  {| _defaults := {[ "course" := "so" ]}; _sections := ∅ |}.

Definition no_job_world : World :=
  world ["remote_check.py"; "hw.ini"]
        (Parsed no_job) (Parsed (config "notify.sh")) (inr 0) (inr 0).

(** No argument at all. *)
Definition bare_world : World :=
  world ["remote_check.py"]
        (Parsed homework) (Parsed (config "notify.sh")) (inr 0) (inr 0).

(** The notifier is given with an absolute path. *)
Definition absolute : Remote :=
  {| remote_ip := "10.0.0.5";
     remote_queue := "/srv/queue";
     remote_user := "grader";
     remote_notifier := "/opt/notify.sh" |}.

Definition absolute_world : World :=
  world ["remote_check.py"; "hw.ini"]
        (Parsed homework) (Parsed (config "/opt/notify.sh")) (inr 0) (inr 0).

(** Two arguments too many. *)
Definition crowded_world : World :=
  world ["remote_check.py"; "hw.ini"; "other.ini"; "-v"]
        (Parsed homework) (Parsed (config "notify.sh")) (inr 0) (inr 0).

End Hw1.

(** ** The second half of [main], and more worlds *)

(** The statements of [main] from the call of [scp] on, for the values [r]
    that the first half has gathered. *)
Definition deploy (w : World) (homework_file : string) (r : Remote) : M unit :=
  return_code <- subprocess.call w
                   [ "scp";
                     homework_file;
                     remote_user r +:+ "@" +:+ remote_ip r +:+ ":"
                       +:+ remote_queue r ] ;;
  (if negb (return_code =? 0)%Z then
     print Stderr copy_failed_msg ;;;
     sys.exit 1
   else ret tt) ;;;

  return_code <- subprocess.call w
                   [ "ssh";
                     remote_user r +:+ "@" +:+ remote_ip r;
                     os.path.join (remote_queue r) (remote_notifier r) ] ;;
  (if negb (return_code =? 0)%Z then
     print Stderr notify_failed_msg ;;;
     sys.exit 1
   else ret tt) ;;;

  print Stderr success_msg.

(** The four options with the messages of their [assert]s, in the order of
    the script. *)
Definition requirements : list (string * string) :=
  [ ("RemoteIP", "No ip for remote machine");
    ("RemoteQueue", "No queue on remote machine");
    ("RemoteUser", "No remote user supplied");
    ("RemoteNotifier", "No notifier supplied") ].

Module Hw1Edge.
Import Hw1.

(** [scp] cannot be started. *)
Definition scp_missing : World :=
  world ["remote_check.py"; "hw.ini"]
        (Parsed homework) (Parsed (config "notify.sh")) (inl OSError) (inr 0).

(** [ssh] cannot be started. *)
Definition ssh_missing : World :=
  world ["remote_check.py"; "hw.ini"]
        (Parsed homework) (Parsed (config "notify.sh")) (inr 0) (inl OSError).

(** There is no homework file to open. *)
Definition no_file : World :=
  world ["remote_check.py"; "hw.ini"]
        Unreadable (Parsed (config "notify.sh")) (inr 0) (inr 0).

(** The homework file is not in INI format. *)
Definition bad_file : World :=
  world ["remote_check.py"; "hw.ini"]
        Malformed (Parsed (config "notify.sh")) (inr 0) (inr 0).

(** The global file is not in INI format, and the homework file has no
    job. *)
Definition bad_config : World :=
  world ["remote_check.py"; "hw.ini"]
        (Parsed no_job) Malformed (inr 0) (inr 0).

(** The locator fails, and [argv] is empty. *)
Definition lost : World :=
  {| argv := [];
     misc_find_config_file := fun _ => inl (OtherError "IOError");
     misc_get_option := get_option_spec;
     files := fun _ => Unreadable;
     subprocess_call := fun _ => inl OSError |}.

(** [misc.get_option] raises when it is asked for [RemoteUser]. *)
Definition moody : World :=
  {| argv := ["remote_check.py"; "hw.ini"];
     misc_find_config_file := fun _ => inr "/etc/vmchecker.ini";
     misc_get_option := fun c section option =>
                          if String.eqb option "RemoteUser"
                          then inl (NoSectionError section)
                          else get_option_spec c section option;
     files := files (std 0 0);
     subprocess_call := subprocess_call (std 0 0) |}.

(** The queue is written with a slash at its end. *)
Definition slashed : Remote :=
  {| remote_ip := "10.0.0.5";
     remote_queue := "/srv/queue/";
     remote_user := "grader";
     remote_notifier := "notify.sh" |}.

Definition slashed_config : RawConfigParser :=
  {| _defaults := ∅;
     _sections := {[ "hw1" := <[ "remotequeue" := "/srv/queue/" ]>
                                (options "notify.sh") ]} |}.

Definition slashed_world : World :=
  world ["remote_check.py"; "hw.ini"]
        (Parsed homework) (Parsed slashed_config) (inr 0) (inr 0).

End Hw1Edge.

(** ** Four runs, computed *)

Example run_success :
  main (Hw1.std 0 0)
  = ([FindConfigFile "vmchecker.ini"; ReadFile "hw.ini";
      ReadFile "/etc/vmchecker.ini";
      Call ["scp"; "hw.ini"; "grader@10.0.0.5:/srv/queue"] (inr 0);
      Call ["ssh"; "grader@10.0.0.5"; "/srv/queue/notify.sh"] (inr 0);
      Print Stderr "Tema a fost copiata cu succes"],
     inr tt).
Proof. vm_compute. reflexivity. Qed.

Example run_scp_failed :
  main (Hw1.std 1 0)
  = ([FindConfigFile "vmchecker.ini"; ReadFile "hw.ini";
      ReadFile "/etc/vmchecker.ini";
      Call ["scp"; "hw.ini"; "grader@10.0.0.5:/srv/queue"] (inr 1);
      Print Stderr "Eroare la copierea temei pe masina de testare"],
     inl (SystemExit 1)).
Proof. vm_compute. reflexivity. Qed.

Example run_no_queue :
  main Hw1.no_queue_world
  = ([FindConfigFile "vmchecker.ini"; ReadFile "hw.ini";
      ReadFile "/etc/vmchecker.ini"],
     inl (Uncaught (AssertionError "No queue on remote machine"))).
Proof. vm_compute. reflexivity. Qed.

Example run_no_arguments :
  main (with_argv (Hw1.std 0 0) [])
  = ([FindConfigFile "vmchecker.ini"], inl (Uncaught IndexError)).
Proof. vm_compute. reflexivity. Qed.

(** ** Stepping through [main] *)

(** Symbolic execution: unfold the statements of the script, then split on
    each answer of the world, in the order in which the script asks. *)
Ltac exec_unfold :=
  unfold main, misc.find_config_file, misc.get_option, subprocess.call,
    sys.exit, read, assert_, index, print, lift, raise, emit, bind, ret,
    trace, result in *.

Ltac exec_simpl :=
  cbn [fst snd app exit_status calls printed reads same_stream nth_error
       length Nat.eqb negb] in *.

Ltac exec_split :=
  match goal with
  | |- context [match ?x with _ => _ end] =>
      lazymatch x with
      | context [match _ with _ => _ end] => fail
      | _ => destruct x eqn:?
      end
  end.

Ltac exec := exec_unfold; exec_simpl; repeat (exec_split; exec_simpl).

(** Run the statements whose answers are known. *)
Ltac go := cbn [bind ret emit raise lift fst snd app].

Create HintDb run.

Lemma quiet_nil : quiet [].
Proof. repeat split. Qed.

Lemma quiet_find name t : quiet t -> quiet (FindConfigFile name :: t).
Proof. intros H. exact H. Qed.

Lemma quiet_read filename t : quiet t -> quiet (ReadFile filename :: t).
Proof. intros H. exact H. Qed.

#[local] Hint Resolve quiet_nil quiet_find quiet_read : run.

Lemma eqb_nonzero rc : negb (rc =? 0)%Z = true -> rc <> 0.
Proof. intros H. apply negb_true_iff in H. now apply Z.eqb_neq. Qed.

Lemma eqb_zero rc : negb (rc =? 0)%Z = false -> rc = 0.
Proof. intros H. apply negb_false_iff in H. now apply Z.eqb_eq. Qed.

Lemma argv_second (w : World) (homework_file : string) :
  nth_error (argv w) 1 = Some homework_file ->
  (length (argv w) =? 1)%nat = false.
Proof.
  destruct (argv w) as [| a [| b l]]; [discriminate.. | reflexivity].
Qed.

(** [main] runs in one of the seven shapes. *)
Lemma main_run (w : World) : Run w (main w).
Proof.
  unfold main.
  destruct (argv w) as [| prog [| homework_file rest]] eqn:Hargv; exec;
    repeat match goal with
           | H : negb (_ =? 0)%Z = true |- _ => apply eqb_nonzero in H
           | H : negb (_ =? 0)%Z = false |- _ => apply eqb_zero in H; subst
           end.
  all: try solve [apply RunAbort; auto 10 with run].
  all: try solve [apply RunUsage; assumption].
  all: match goal with
       | |- Run _ (?a :: ?b :: ?c :: ?rest, _) =>
           change (a :: b :: c :: rest) with ([a; b; c] ++ rest)
       end.
  all: first [ apply RunScpRaised | apply RunScpFailed | apply RunSshRaised
             | apply RunSshFailed | apply RunSuccess ];
    auto 10 with run.
Qed.

(** ** Facts about traces *)

Lemma calls_app (t1 t2 : list event) : calls (t1 ++ t2) = calls t1 ++ calls t2.
Proof.
  induction t1 as [| [] t1 IH]; cbn [calls app]; rewrite ?IH; reflexivity.
Qed.

Lemma printed_app (out : stream) (t1 t2 : list event) :
  printed out (t1 ++ t2) = printed out t1 ++ printed out t2.
Proof.
  induction t1 as [| e t1 IH]; [reflexivity |].
  destruct e as [o line | name | filename | args res]; cbn [printed app];
    rewrite ?IH; [destruct (same_stream o out) |..]; reflexivity.
Qed.

Lemma In_calls (t : list event) (args : list string) (res : exn + Z) :
  In (Call args res) t -> In args (calls t).
Proof.
  induction t as [| e t IH]; [intros [] |].
  intros [-> | H]; [left; reflexivity |].
  destruct e; cbn [calls]; try right; auto.
Qed.

Lemma quiet_no_call (t : list event) (args : list string) (res : exn + Z) :
  quiet t -> ~ In (Call args res) t.
Proof.
  intros (Hc & _) H. apply In_calls in H. rewrite Hc in H. destruct H.
Qed.

Lemma quiet_app_calls (pre t : list event) :
  quiet pre -> calls (pre ++ t) = calls t.
Proof. intros (Hc & _). now rewrite calls_app, Hc. Qed.

Lemma quiet_app_printed (out : stream) (pre t : list event) :
  quiet pre -> printed out (pre ++ t) = printed out t.
Proof.
  intros (_ & Ho & He). rewrite printed_app. destruct out; now rewrite ?Ho, ?He.
Qed.

Lemma Call_inj (p : string) (a b : list string) (r s : exn + Z) :
  Call (p :: a) r = Call (p :: b) s -> a = b /\ r = s.
Proof. intros H. injection H as -> ->. auto. Qed.

(** Split on the shape of the run of [main] in [w]. *)
Ltac run_cases w :=
  unfold trace, result;
  generalize (main_run w); generalize (main w);
  let m := fresh "m" in
  let H := fresh "Hrun" in
  intros m H; destruct H; cbn [fst snd].

(** Decide which event of a run a given [Call] can be. *)
Ltac find_call :=
  repeat match goal with
         | H : In _ (_ ++ _) |- _ => apply in_app_or in H; destruct H as [H | H]
         | Hq : quiet ?pre, H : In (Call _ _) ?pre |- _ =>
             exfalso; exact (quiet_no_call _ _ _ Hq H)
         | H : In _ (_ :: _) |- _ => destruct H as [H | H]
         | H : In _ [] |- _ => destruct H
         | H : @eq event _ _ |- _ => discriminate H
         | H : Call (_ :: _) _ = Call (_ :: _) _ |- _ =>
             apply Call_inj in H; destruct H as (? & ?)
         | H : @eq (exn + Z) _ _ |- _ =>
             first [discriminate H | injection H as ?]
         end; subst.

(** Go through the events of an explicit trace. *)
Ltac in_cases :=
  repeat match goal with
         | H : In _ (_ :: _) |- _ => destruct H as [H | H]
         | H : In _ [] |- _ => destruct H
         | H : ReadFile _ = ReadFile _ |- _ => injection H as ?
         | H : Print _ (usage_msg _) = Print _ _ |- _ =>
             unfold usage_msg in H; discriminate H
         | H : @eq event _ _ |- _ => discriminate H
         end; subst.

(** ** Facts about the library functions *)

Lemma length_append (s1 s2 : string) :
  String.length (s1 +:+ s2) = (String.length s1 + String.length s2)%nat.
Proof.
  induction s1 as [| c s1 IH]; [reflexivity |].
  change (S (String.length (s1 +:+ s2))
          = S (String.length s1 + String.length s2)%nat).
  now rewrite IH.
Qed.

(** A second component that starts with [/] replaces the first. *)
Lemma join_absolute (a b : string) :
  startswith b "/" = true -> os.path.join a b = b.
Proof. intros H. unfold os.path.join. now rewrite H. Qed.

(** Otherwise the two are put together, with a [/] between them unless the
    first one brings it. *)
Lemma join_relative (a b : string) :
  startswith b "/" = false -> a <> EmptyString -> endswith_char a "/" = false ->
  os.path.join a b = a +:+ "/" +:+ b.
Proof.
  intros Hb Ha He. unfold os.path.join. rewrite Hb, He.
  apply String.eqb_neq in Ha. now rewrite Ha.
Qed.

Lemma get_default_missing (c : RawConfigParser) (option : string) :
  wf c ->
  _defaults c !! optionxform option = None ->
  get c "DEFAULT" option = inl (NoOptionError option "DEFAULT").
Proof.
  unfold wf, get, DEFAULTSECT. intros -> ->. reflexivity.
Qed.

(** What [has_option] denies, [get] does not find. *)
Lemma has_option_false_unset (c : RawConfigParser) (section option : string) :
  wf c -> section <> EmptyString ->
  has_option c section option = false ->
  unset c section option.
Proof.
  unfold wf, has_option, unset, get. intros Hwf Hne Hhas v.
  apply String.eqb_neq in Hne. rewrite Hne in Hhas. cbn [orb] in Hhas.
  destruct (String.eqb_spec section DEFAULTSECT) as [-> | Hd].
  - rewrite Hwf. cbn [negb].
    apply bool_decide_eq_false in Hhas.
    destruct (_defaults c !! optionxform option) as [x |]; [| discriminate].
    exfalso. apply Hhas. eexists. reflexivity.
  - destruct (_sections c !! section) as [sect |]; [| discriminate].
    apply orb_false_iff in Hhas. destruct Hhas as (H1 & H2).
    apply bool_decide_eq_false in H1, H2.
    destruct (sect !! optionxform option) as [x |];
      [exfalso; apply H1; eexists; reflexivity |].
    destruct (_defaults c !! optionxform option) as [x |];
      [exfalso; apply H2; eexists; reflexivity | discriminate].
Qed.

Lemma unset_not_truthy (c : RawConfigParser) (section option v : string) :
  unset c section option ->
  get c section option = inr v ->
  truthy (Some v) = false.
Proof. intros Hu Hg. now rewrite (Hu v Hg). Qed.

Lemma truthy_Some (s : string) : s <> EmptyString -> truthy (Some s) = true.
Proof.
  intros H. unfold truthy. apply negb_true_iff, String.eqb_neq, H.
Qed.

Lemma assert_passes (s msg : string) : s <> EmptyString -> assert_ (Some s) msg = ret s.
Proof. intros H. unfold assert_. now rewrite truthy_Some. Qed.

Lemma read_result (w : World) (filename : string) (c : RawConfigParser) :
  loads w filename c ->
  read w filename = ([ReadFile filename], inr c).
Proof.
  unfold loads, read, result, bind, emit, raise, ret.
  destruct (files w filename); cbn; intros H; congruence.
Qed.

(** ** Runs with a complete configuration *)

(** The processes started by a run whose configuration is complete: [scp],
    and then [ssh] when [scp] returned 0. *)
Lemma configured_calls (w : World) (homework_file job : string) (r : Remote) :
  configured w homework_file job r ->
  complete r ->
  calls (trace (main w))
  = scp_command homework_file r ::
      match subprocess_call w (scp_command homework_file r) with
      | inr 0 => [ssh_command r]
      | _ => []
      end.
Proof.
  intros (cfg & (Hfile & cf & hw & Hcf & Hhw & Hcfg & Hjob) & Hip & Hq & Hu & Hn)
         (Nip & Nq & Nu & Nn).
  apply read_result in Hhw, Hcfg.
  unfold main, scp_command, ssh_command.
  rewrite (argv_second _ _ Hfile).
  unfold misc.find_config_file, misc.get_option, index. rewrite Hcf, Hfile.
  go. rewrite Hhw.
  go. rewrite Hcfg.
  go. rewrite Hjob.
  go.
  rewrite Hip. go. rewrite (assert_passes _ _ Nip). go.
  rewrite Hq. go. rewrite (assert_passes _ _ Nq). go.
  rewrite Hu. go. rewrite (assert_passes _ _ Nu). go.
  rewrite Hn. go. rewrite (assert_passes _ _ Nn). go.
  exec_unfold; exec_simpl.
  destruct (subprocess_call w _) as [e | rc]; [reflexivity |].
  destruct rc; exec_simpl; [| reflexivity..].
  destruct (subprocess_call w _) as [e | rc]; [reflexivity |].
  destruct (rc =? 0)%Z; reflexivity.
Qed.

Lemma std_configured (scp ssh : Z) :
  configured (Hw1.std scp ssh) "hw.ini" "hw1" Hw1.remote.
Proof.
  exists (Hw1.config "notify.sh"). split; [| repeat split; reflexivity].
  split; [reflexivity |].
  exists "/etc/vmchecker.ini", Hw1.homework. repeat split; reflexivity.
Defined.

(** ** The claims *)

(** C1: in every execution in which the call of [scp] returns a non-zero
    exit code, the script prints its copy-error message on standard error
    (the last thing it does, and the only thing it prints), exits with
    code 1, and never invokes [ssh]: the call of [scp] is its only call. *)
Theorem scp_failure_stops (w : World) (args : list string) (rc : Z) :
  In (Call ("scp" :: args) (inr rc)) (trace (main w)) ->
  rc <> 0 ->
  (exists pre,
      trace (main w)
      = pre ++ [Call ("scp" :: args) (inr rc); Print Stderr copy_failed_msg])
  /\ printed Stderr (trace (main w)) = [copy_failed_msg]
  /\ result (main w) = inl (SystemExit 1)
  /\ exit_status (result (main w)) = 1
  /\ calls (trace (main w)) = ["scp" :: args]
  /\ (forall args' res, ~ In (Call ("ssh" :: args') res) (trace (main w))).
Proof.
  run_cases w; intros Hin Hrc; find_call; try contradiction.
  rewrite quiet_app_printed, quiet_app_calls by assumption.
  repeat split; eauto.
  intros args' res Hssh. find_call.
Qed.

(** [scp] exits with 1. *)
Lemma scp_failure_stops_hw1 :
  (In (Call ("scp" :: Hw1.scp_args) (inr 1)) (trace (main (Hw1.std 1 0)))
   /\ 1 <> 0)
  /\ (exists pre,
         trace (main (Hw1.std 1 0))
         = pre ++ [Call ("scp" :: Hw1.scp_args) (inr 1);
                   Print Stderr copy_failed_msg])
  /\ printed Stderr (trace (main (Hw1.std 1 0))) = [copy_failed_msg]
  /\ result (main (Hw1.std 1 0)) = inl (SystemExit 1)
  /\ exit_status (result (main (Hw1.std 1 0))) = 1
  /\ calls (trace (main (Hw1.std 1 0))) = ["scp" :: Hw1.scp_args]
  /\ (forall args' res,
         ~ In (Call ("ssh" :: args') res) (trace (main (Hw1.std 1 0)))).
Proof.
  assert (H : In (Call ("scp" :: Hw1.scp_args) (inr 1))
                 (trace (main (Hw1.std 1 0)))).
  { vm_compute. auto 10. }
  assert (N : 1 <> 0) by lia.
  split; [exact (conj H N) |].
  exact (scp_failure_stops (Hw1.std 1 0) Hw1.scp_args 1 H N).
Defined.

(** C2: when the homework file yields [Job=hw1] and [misc.get_option]
    yields [10.0.0.5], [/srv/queue], [grader] and [notify.sh] for [hw1], the
    processes the script starts are [scp <file> grader@10.0.0.5:/srv/queue]
    and then, when that one returned 0 and only then,
    [ssh grader@10.0.0.5 /srv/queue/notify.sh]. *)
Theorem hw1_commands (w : World) (homework_file : string) :
  configured w homework_file "hw1" Hw1.remote ->
  calls (trace (main w))
  = ["scp"; homework_file; "grader@10.0.0.5:/srv/queue"] ::
      match subprocess_call w
              ["scp"; homework_file; "grader@10.0.0.5:/srv/queue"] with
      | inr 0 => [["ssh"; "grader@10.0.0.5"; "/srv/queue/notify.sh"]]
      | _ => []
      end.
Proof.
  intros H. apply configured_calls in H.
  - exact H.
  - repeat split; discriminate.
Qed.

Lemma hw1_commands_scenario :
  configured (Hw1.std 0 0) "hw.ini" "hw1" Hw1.remote
  /\ calls (trace (main (Hw1.std 0 0)))
     = ["scp"; "hw.ini"; "grader@10.0.0.5:/srv/queue"] ::
         match subprocess_call (Hw1.std 0 0)
                 ["scp"; "hw.ini"; "grader@10.0.0.5:/srv/queue"] with
         | inr 0 => [["ssh"; "grader@10.0.0.5"; "/srv/queue/notify.sh"]]
         | _ => []
         end.
Proof.
  split; [apply std_configured |].
  exact (hw1_commands (Hw1.std 0 0) "hw.ini" (std_configured 0 0)).
Defined.

(** C3: in every execution in which [scp] and then [ssh] return exit
    code 0, the success message is what the script prints, once, on standard
    error; nothing goes to standard output; the script runs to its end and
    the exit status is 0. *)
Theorem both_succeed_reports_success (w : World) (a b : list string) :
  In (Call ("scp" :: a) (inr 0)) (trace (main w)) ->
  In (Call ("ssh" :: b) (inr 0)) (trace (main w)) ->
  printed Stderr (trace (main w)) = [success_msg]
  /\ printed Stdout (trace (main w)) = []
  /\ count_occ string_dec
       (printed Stderr (trace (main w)) ++ printed Stdout (trace (main w)))
       success_msg = 1%nat
  /\ result (main w) = inr tt
  /\ exit_status (result (main w)) = 0.
Proof.
  run_cases w; intros Hscp Hssh; find_call; try contradiction.
  rewrite !quiet_app_printed by assumption.
  repeat split; reflexivity.
Qed.

(** Both processes exit with 0. *)
Lemma both_succeed_reports_success_hw1 :
  (In (Call ("scp" :: Hw1.scp_args) (inr 0)) (trace (main (Hw1.std 0 0)))
   /\ In (Call ("ssh" :: Hw1.ssh_args) (inr 0)) (trace (main (Hw1.std 0 0))))
  /\ printed Stderr (trace (main (Hw1.std 0 0))) = [success_msg]
  /\ printed Stdout (trace (main (Hw1.std 0 0))) = []
  /\ count_occ string_dec
       (printed Stderr (trace (main (Hw1.std 0 0)))
        ++ printed Stdout (trace (main (Hw1.std 0 0))))
       success_msg = 1%nat
  /\ result (main (Hw1.std 0 0)) = inr tt
  /\ exit_status (result (main (Hw1.std 0 0))) = 0.
Proof.
  assert (H1 : In (Call ("scp" :: Hw1.scp_args) (inr 0))
                  (trace (main (Hw1.std 0 0)))).
  { vm_compute. auto 10. }
  assert (H2 : In (Call ("ssh" :: Hw1.ssh_args) (inr 0))
                  (trace (main (Hw1.std 0 0)))).
  { vm_compute. auto 10. }
  split; [exact (conj H1 H2) |].
  exact (both_succeed_reports_success (Hw1.std 0 0) Hw1.scp_args Hw1.ssh_args
           H1 H2).
Defined.

(** C4: in every execution in which [scp] returns 0 and [ssh] returns a
    non-zero exit code, the script prints its notifier-error message on
    standard error and exits with code 1; [scp] and [ssh] are the only two
    processes it starts, and after the call of [ssh] it only prints. *)
Theorem ssh_failure_stops (w : World) (a b : list string) (rc : Z) :
  In (Call ("scp" :: a) (inr 0)) (trace (main w)) ->
  In (Call ("ssh" :: b) (inr rc)) (trace (main w)) ->
  rc <> 0 ->
  (exists pre,
      calls pre = [] /\
      trace (main w)
      = pre ++ [Call ("scp" :: a) (inr 0); Call ("ssh" :: b) (inr rc);
                Print Stderr notify_failed_msg])
  /\ printed Stderr (trace (main w)) = [notify_failed_msg]
  /\ result (main w) = inl (SystemExit 1)
  /\ exit_status (result (main w)) = 1
  /\ calls (trace (main w)) = ["scp" :: a; "ssh" :: b].
Proof.
  run_cases w; intros Hscp Hssh Hrc; find_call; try contradiction.
  rewrite quiet_app_printed, quiet_app_calls by assumption.
  repeat split; try reflexivity.
  exists pre. split; [apply H | reflexivity].
Qed.

(** [ssh] exits with 255. *)
Lemma ssh_failure_stops_hw1 :
  (In (Call ("scp" :: Hw1.scp_args) (inr 0)) (trace (main (Hw1.std 0 255)))
   /\ In (Call ("ssh" :: Hw1.ssh_args) (inr 255)) (trace (main (Hw1.std 0 255)))
   /\ 255 <> 0)
  /\ (exists pre,
         calls pre = [] /\
         trace (main (Hw1.std 0 255))
         = pre ++ [Call ("scp" :: Hw1.scp_args) (inr 0);
                   Call ("ssh" :: Hw1.ssh_args) (inr 255);
                   Print Stderr notify_failed_msg])
  /\ printed Stderr (trace (main (Hw1.std 0 255))) = [notify_failed_msg]
  /\ result (main (Hw1.std 0 255)) = inl (SystemExit 1)
  /\ exit_status (result (main (Hw1.std 0 255))) = 1
  /\ calls (trace (main (Hw1.std 0 255)))
     = ["scp" :: Hw1.scp_args; "ssh" :: Hw1.ssh_args].
Proof.
  assert (H1 : In (Call ("scp" :: Hw1.scp_args) (inr 0))
                  (trace (main (Hw1.std 0 255)))).
  { vm_compute. auto 10. }
  assert (H2 : In (Call ("ssh" :: Hw1.ssh_args) (inr 255))
                  (trace (main (Hw1.std 0 255)))).
  { vm_compute. auto 10. }
  assert (N : 255 <> 0) by lia.
  split; [exact (conj H1 (conj H2 N)) |].
  exact (ssh_failure_stops (Hw1.std 0 255) Hw1.scp_args Hw1.ssh_args 255
           H1 H2 N).
Defined.

(** C5: with [misc.get_option] as the specification describes it, when the
    job's section of the global configuration has no value, or the empty
    string, for one of the four required options, the script is stopped by a
    failed [assert] once it has read the two files: it prints nothing and
    starts neither [scp] nor [ssh]. *)
Theorem unset_option_asserts
        (w : World) (homework_file job : string) (config : RawConfigParser) :
  misc_get_option w = get_option_spec ->
  resolved w homework_file job config ->
  (exists option, In option required /\ unset config job option) ->
  (exists msg, result (main w) = inl (Uncaught (AssertionError msg)))
  /\ aborted (main w)
  /\ calls (trace (main w)) = []
  /\ printed Stderr (trace (main w)) = []
  /\ (forall args res, ~ In (Call args res) (trace (main w))).
Proof.
  intros Hmisc (Hfile & cf & hw & Hcf & Hhw & Hcfg & Hjob)
         (option & Hin & Hunset).
  apply read_result in Hhw, Hcfg.
  pose proof (fun v => unset_not_truthy _ _ _ v Hunset) as Hfalse.
  unfold aborted, main. rewrite (argv_second _ _ Hfile).
  unfold misc.find_config_file, misc.get_option, index.
  rewrite Hmisc, Hcf, Hfile.
  go. rewrite Hhw. go. rewrite Hcfg. go. rewrite Hjob. go.
  unfold get_option_spec.
  exec.
  all: try solve [repeat split; eauto; intros args res Hc; in_cases].
  all: exfalso; unfold required in Hin; in_cases;
    match goal with
    | H : get _ _ _ = inr ?v, T : truthy (Some ?v) = true |- _ =>
        rewrite (Hfalse v H) in T; discriminate T
    end.
Qed.

(** The global file has no [RemoteQueue] for [hw1]. *)
Lemma unset_option_asserts_hw1 :
  (misc_get_option Hw1.no_queue_world = get_option_spec
   /\ resolved Hw1.no_queue_world "hw.ini" "hw1" Hw1.no_queue
   /\ (exists option, In option required /\ unset Hw1.no_queue "hw1" option))
  /\ (exists msg,
         result (main Hw1.no_queue_world) = inl (Uncaught (AssertionError msg)))
  /\ aborted (main Hw1.no_queue_world)
  /\ calls (trace (main Hw1.no_queue_world)) = []
  /\ printed Stderr (trace (main Hw1.no_queue_world)) = []
  /\ (forall args res, ~ In (Call args res) (trace (main Hw1.no_queue_world))).
Proof.
  assert (H1 : misc_get_option Hw1.no_queue_world = get_option_spec)
    by reflexivity.
  assert (H2 : resolved Hw1.no_queue_world "hw.ini" "hw1" Hw1.no_queue).
  { split; [reflexivity |].
    exists "/etc/vmchecker.ini", Hw1.homework. repeat split; reflexivity. }
  assert (H3 : exists option,
             In option required /\ unset Hw1.no_queue "hw1" option).
  { exists "RemoteQueue". split; [right; left; reflexivity |].
    intros v Hv. vm_compute in Hv. discriminate Hv. }
  split; [exact (conj H1 (conj H2 H3)) |].
  exact (unset_option_asserts Hw1.no_queue_world "hw.ini" "hw1" Hw1.no_queue
           H1 H2 H3).
Defined.

(** C6: for a homework file without a [Job] value in its default section
    the script is stopped by an exception before it starts any process and
    before it prints anything.  When the global configuration file is found
    and read, that exception is the [NoOptionError] of the lookup of
    [Job]. *)
Theorem missing_job_aborts
        (w : World) (homework_file : string) (homework : RawConfigParser) :
  nth_error (argv w) 1 = Some homework_file ->
  loads w homework_file homework ->
  wf homework ->
  _defaults homework !! optionxform "Job" = None ->
  aborted (main w)
  /\ calls (trace (main w)) = []
  /\ printed Stderr (trace (main w)) = []
  /\ (forall config_file config,
        misc_find_config_file w "vmchecker.ini" = inr config_file ->
        loads w config_file config ->
        main w = ([FindConfigFile "vmchecker.ini"; ReadFile homework_file;
                   ReadFile config_file],
                  inl (Uncaught (NoOptionError "Job" "DEFAULT")))).
Proof.
  intros Hfile Hhw Hwf Hjob.
  pose proof (get_default_missing _ _ Hwf Hjob) as Hget.
  apply read_result in Hhw.
  unfold aborted, main. rewrite (argv_second _ _ Hfile).
  unfold misc.find_config_file, index. rewrite Hfile.
  destruct (misc_find_config_file w "vmchecker.ini") as [e | cf]; go.
  - repeat split; [eexists; reflexivity | discriminate].
  - rewrite Hhw. go. rewrite Hget.
    unfold read. destruct (files w cf) eqn:Hfiles; exec_unfold; exec_simpl.
    all: repeat split; [eexists; reflexivity |].
    all: intros config_file config Hcf Hcfg.
    all: injection Hcf as <-; try reflexivity.
    unfold loads, read in Hcfg. rewrite Hfiles in Hcfg. discriminate Hcfg.
Qed.

(** The homework file names a course but no job. *)
Lemma missing_job_aborts_hw1 :
  (nth_error (argv Hw1.no_job_world) 1 = Some "hw.ini"
   /\ loads Hw1.no_job_world "hw.ini" Hw1.no_job
   /\ wf Hw1.no_job
   /\ _defaults Hw1.no_job !! optionxform "Job" = None)
  /\ aborted (main Hw1.no_job_world)
  /\ calls (trace (main Hw1.no_job_world)) = []
  /\ printed Stderr (trace (main Hw1.no_job_world)) = []
  /\ (forall config_file config,
        misc_find_config_file Hw1.no_job_world "vmchecker.ini"
        = inr config_file ->
        loads Hw1.no_job_world config_file config ->
        main Hw1.no_job_world
        = ([FindConfigFile "vmchecker.ini"; ReadFile "hw.ini";
            ReadFile config_file],
           inl (Uncaught (NoOptionError "Job" "DEFAULT")))).
Proof.
  split; [repeat split; reflexivity |].
  apply (missing_job_aborts Hw1.no_job_world "hw.ini" Hw1.no_job); reflexivity.
Defined.

(** C7: with the program name as the only element of [argv], the script
    prints the usage line on standard error and exits with code 1, and that
    is all: no configuration file is looked for or read and no process is
    started. *)
Theorem no_argument_usage (w : World) (prog : string) :
  argv w = [prog] ->
  main w = ([Print Stderr (usage_msg prog)], inl (SystemExit 1))
  /\ exit_status (result (main w)) = 1
  /\ reads (trace (main w)) = []
  /\ calls (trace (main w)) = []
  /\ (forall name, ~ In (FindConfigFile name) (trace (main w))).
Proof.
  intros Hargv.
  assert (Hmain : main w = ([Print Stderr (usage_msg prog)], inl (SystemExit 1))).
  { unfold main. rewrite Hargv. reflexivity. }
  rewrite Hmain. repeat split.
  intros name [H | []]. discriminate H.
Qed.

(** No argument at all. *)
Lemma no_argument_usage_hw1 :
  argv Hw1.bare_world = ["remote_check.py"]
  /\ main Hw1.bare_world
     = ([Print Stderr (usage_msg "remote_check.py")], inl (SystemExit 1))
  /\ exit_status (result (main Hw1.bare_world)) = 1
  /\ reads (trace (main Hw1.bare_world)) = []
  /\ calls (trace (main Hw1.bare_world)) = []
  /\ (forall name, ~ In (FindConfigFile name) (trace (main Hw1.bare_world))).
Proof.
  split; [reflexivity |].
  apply (no_argument_usage Hw1.bare_world "remote_check.py"); reflexivity.
Defined.

(** C8: the exit status of every execution is 0 or 1; it is 0 exactly when
    the script runs to its end, which it does exactly when both child
    processes returned 0. *)
Theorem exit_status_0_or_1 (w : World) :
  (exit_status (result (main w)) = 0 \/ exit_status (result (main w)) = 1)
  /\ (exit_status (result (main w)) = 0 <-> result (main w) = inr tt)
  /\ (result (main w) = inr tt <->
      exists a b, In (Call ("scp" :: a) (inr 0)) (trace (main w))
                  /\ In (Call ("ssh" :: b) (inr 0)) (trace (main w))).
Proof.
  run_cases w; cbn [exit_status]; change (Z.land 1 255) with 1.
  all: split; [auto |]; split; [split; intros; discriminate || reflexivity |].
  all: split; [try discriminate | intros (a' & b' & Hscp & Hssh)].
  all: find_call; try contradiction; try reflexivity.
  all: try match goal with H : argv _ = _ |- _ => clear H end.
  intros _. exists a, b. split; apply in_or_app; right; cbn; auto.
Qed.

(** C9: when [RemoteNotifier] begins with [/], the command handed to [ssh]
    is the notifier path alone: the path join drops [RemoteQueue], so the
    command is not [<queue>/<notifier>]. *)
Theorem absolute_notifier_drops_queue
        (w : World) (homework_file job : string) (r : Remote) :
  configured w homework_file job r ->
  remote_ip r <> EmptyString -> remote_queue r <> EmptyString -> remote_user r <> EmptyString ->
  startswith (remote_notifier r) "/" = true ->
  os.path.join (remote_queue r) (remote_notifier r) = remote_notifier r
  /\ remote_notifier r <> remote_queue r +:+ "/" +:+ remote_notifier r
  /\ calls (trace (main w))
     = scp_command homework_file r ::
         match subprocess_call w (scp_command homework_file r) with
         | inr 0 => [["ssh"; remote_user r +:+ "@" +:+ remote_ip r;
                      remote_notifier r]]
         | _ => []
         end.
Proof.
  intros Hc Nip Nq Nu Habs.
  pose proof (join_absolute (remote_queue r) _ Habs) as Hjoin.
  split; [exact Hjoin |]. split.
  - intros Heq. apply (f_equal String.length) in Heq.
    rewrite !length_append in Heq. cbn in Heq. lia.
  - apply configured_calls in Hc.
    + unfold ssh_command in Hc. rewrite Hjoin in Hc. exact Hc.
    + repeat split; try assumption.
      intros Hn. rewrite Hn in Habs. discriminate Habs.
Qed.

(** The notifier is [/opt/notify.sh]. *)
Lemma absolute_notifier_drops_queue_hw1 :
  (configured Hw1.absolute_world "hw.ini" "hw1" Hw1.absolute
   /\ remote_ip Hw1.absolute <> EmptyString /\ remote_queue Hw1.absolute <> EmptyString
   /\ remote_user Hw1.absolute <> EmptyString
   /\ startswith (remote_notifier Hw1.absolute) "/" = true)
  /\ os.path.join (remote_queue Hw1.absolute) (remote_notifier Hw1.absolute)
     = remote_notifier Hw1.absolute
  /\ remote_notifier Hw1.absolute
     <> remote_queue Hw1.absolute +:+ "/" +:+ remote_notifier Hw1.absolute
  /\ calls (trace (main Hw1.absolute_world))
     = scp_command "hw.ini" Hw1.absolute ::
         match subprocess_call Hw1.absolute_world
                 (scp_command "hw.ini" Hw1.absolute) with
         | inr 0 => [["ssh";
                      remote_user Hw1.absolute +:+ "@" +:+ remote_ip Hw1.absolute;
                      remote_notifier Hw1.absolute]]
         | _ => []
         end.
Proof.
  assert (H : configured Hw1.absolute_world "hw.ini" "hw1" Hw1.absolute).
  { exists (Hw1.config "/opt/notify.sh"). split; [| repeat split; reflexivity].
    split; [reflexivity |].
    exists "/etc/vmchecker.ini", Hw1.homework. repeat split; reflexivity. }
  split; [split; [exact H | repeat split; discriminate] |].
  apply (absolute_notifier_drops_queue Hw1.absolute_world "hw.ini" "hw1"
           Hw1.absolute H);
    try discriminate; reflexivity.
Defined.

(** ** The two halves of [main] *)

Lemma truthy_nonempty (s : string) : truthy (Some s) = true -> s <> EmptyString.
Proof.
  unfold truthy. intros H. apply negb_true_iff in H. now apply String.eqb_neq.
Qed.

(** What the second half does, by the answers of the two processes. *)
Lemma deploy_eq (w : World) (homework_file : string) (r : Remote) :
  deploy w homework_file r
  = match subprocess_call w (scp_command homework_file r) with
    | inl e =>
        ([Call (scp_command homework_file r) (inl e)], inl (Uncaught e))
    | inr rc =>
        if (rc =? 0)%Z then
          match subprocess_call w (ssh_command r) with
          | inl e =>
              ([Call (scp_command homework_file r) (inr rc);
                Call (ssh_command r) (inl e)],
               inl (Uncaught e))
          | inr rc' =>
              if (rc' =? 0)%Z then
                ([Call (scp_command homework_file r) (inr rc);
                  Call (ssh_command r) (inr rc');
                  Print Stderr success_msg],
                 inr tt)
              else
                ([Call (scp_command homework_file r) (inr rc);
                  Call (ssh_command r) (inr rc');
                  Print Stderr notify_failed_msg],
                 inl (SystemExit 1))
          end
        else
          ([Call (scp_command homework_file r) (inr rc);
            Print Stderr copy_failed_msg],
           inl (SystemExit 1))
    end.
Proof.
  unfold deploy, scp_command, ssh_command, subprocess.call, print, sys.exit,
    lift, raise, emit, bind, ret.
  destruct (subprocess_call w _) as [e | rc]; [reflexivity |].
  destruct (rc =? 0)%Z; cbn [negb app]; [| reflexivity].
  destruct (subprocess_call w _) as [e | rc']; [reflexivity |].
  destruct (rc' =? 0)%Z; reflexivity.
Qed.

(** With a complete configuration, [main] is its first three events
    followed by its second half. *)
Lemma main_configured (w : World) (homework_file job : string) (r : Remote) :
  configured w homework_file job r ->
  complete r ->
  exists config_file,
    misc_find_config_file w "vmchecker.ini" = inr config_file
    /\ main w
       = ([FindConfigFile "vmchecker.ini"; ReadFile homework_file;
           ReadFile config_file] ++ trace (deploy w homework_file r),
          result (deploy w homework_file r)).
Proof.
  intros (cfg & (Hfile & cf & hw & Hcf & Hhw & Hcfg & Hjob) & Hip & Hq & Hu & Hn)
         (Nip & Nq & Nu & Nn).
  exists cf. split; [exact Hcf |].
  apply read_result in Hhw, Hcfg.
  unfold main, deploy.
  rewrite (argv_second _ _ Hfile).
  unfold misc.find_config_file, misc.get_option, index. rewrite Hcf, Hfile.
  go. rewrite Hhw.
  go. rewrite Hcfg.
  go. rewrite Hjob.
  go.
  rewrite Hip. go. rewrite (assert_passes _ _ Nip). go.
  rewrite Hq. go. rewrite (assert_passes _ _ Nq). go.
  rewrite Hu. go. rewrite (assert_passes _ _ Nu). go.
  rewrite Hn. go. rewrite (assert_passes _ _ Nn). go.
  unfold trace, result.
  match goal with
  | |- _ = (_ :: _ :: _ :: fst ?d, snd ?d) => destruct d as [t res]
  end.
  reflexivity.
Qed.

(** A run that gets as far as calling [scp] has a complete configuration,
    and the command line is the one built from it. *)
Lemma scp_called_configured (w : World) (args : list string) (res : exn + Z) :
  In (Call ("scp" :: args) res) (trace (main w)) ->
  exists homework_file job r,
    configured w homework_file job r
    /\ complete r
    /\ "scp" :: args = scp_command homework_file r.
Proof.
  unfold main.
  destruct (argv w) as [| prog [| homework_file rest]] eqn:Hargv; exec;
    intros Hin; in_cases.
  all: match goal with
       | H : Call _ _ = Call _ _ |- _ => injection H as Hargs Hres
       end.
  all: match goal with
       | Hjob : get _ "DEFAULT" "Job" = inr ?job,
         Hip : misc_get_option _ _ _ "RemoteIP" = inr (Some ?ip),
         Hq : misc_get_option _ _ _ "RemoteQueue" = inr (Some ?q),
         Hu : misc_get_option _ _ _ "RemoteUser" = inr (Some ?u),
         Hn : misc_get_option _ _ _ "RemoteNotifier" = inr (Some ?n) |- _ =>
           exists homework_file, job,
             {| remote_ip := ip; remote_queue := q;
                remote_user := u; remote_notifier := n |}
       end.
  all: split; [| split; [repeat split; apply truthy_nonempty; assumption
                        | rewrite <- Hargs; reflexivity]].
  all: eexists; split; [| repeat split; eassumption].
  all: split; [rewrite Hargv; reflexivity |].
  all: do 2 eexists; split; [eassumption |].
  all: unfold loads, read, result, bind, emit, ret;
    repeat match goal with H : files _ _ = _ |- _ => rewrite H; clear H end;
    cbn [snd]; repeat split; try reflexivity; eassumption.
Qed.

(** ** Further properties of [main] *)

(** X1: the message matches the outcome.  Nothing is ever printed on
    standard output.  A run that reaches the end has printed the success
    message and nothing else; a run that ends in [sys.exit] exits with code 1
    and has printed exactly one of the three error lines; a run that is
    stopped by an exception has printed nothing. *)
Theorem message_matches_outcome (w : World) :
  printed Stdout (trace (main w)) = []
  /\ match result (main w) with
     | inr _ => printed Stderr (trace (main w)) = [success_msg]
     | inl (SystemExit code) =>
         code = 1
         /\ (printed Stderr (trace (main w)) = [copy_failed_msg]
             \/ printed Stderr (trace (main w)) = [notify_failed_msg]
             \/ exists prog,
                 argv w = [prog]
                 /\ printed Stderr (trace (main w)) = [usage_msg prog])
     | inl (Uncaught _) => printed Stderr (trace (main w)) = []
     end.
Proof.
  run_cases w; rewrite ?quiet_app_printed by assumption;
    cbn [printed same_stream].
  - split; [reflexivity |]. split; [reflexivity |]. right. right. eauto.
  - split; apply H.
  - split; reflexivity.
  - split; [reflexivity |]. split; [reflexivity |]. left. reflexivity.
  - split; reflexivity.
  - split; [reflexivity |]. split; [reflexivity |]. right. left. reflexivity.
  - split; reflexivity.
Qed.

(** X2: [ssh] is started only when [scp] has been started just before it
    and has returned 0; these two are then the only processes of the run. *)
Theorem ssh_only_after_scp (w : World) (b : list string) (res : exn + Z) :
  In (Call ("ssh" :: b) res) (trace (main w)) ->
  exists pre a post,
    trace (main w)
    = pre ++ Call ("scp" :: a) (inr 0) :: Call ("ssh" :: b) res :: post
    /\ calls pre = []
    /\ calls post = [].
Proof.
  run_cases w; intros Hin; find_call.
  - exists pre, a, []. repeat split. apply H.
  - exists pre, a, [Print Stderr notify_failed_msg]. repeat split. apply H.
  - exists pre, a, [Print Stderr success_msg]. repeat split. apply H.
Qed.

Lemma ssh_only_after_scp_hw1 :
  In (Call ("ssh" :: Hw1.ssh_args) (inr 0)) (trace (main (Hw1.std 0 0)))
  /\ exists pre a post,
      trace (main (Hw1.std 0 0))
      = pre ++ Call ("scp" :: a) (inr 0)
            :: Call ("ssh" :: Hw1.ssh_args) (inr 0) :: post
      /\ calls pre = []
      /\ calls post = [].
Proof.
  assert (H : In (Call ("ssh" :: Hw1.ssh_args) (inr 0))
                 (trace (main (Hw1.std 0 0)))).
  { vm_compute. auto 10. }
  split; [exact H |].
  exact (ssh_only_after_scp (Hw1.std 0 0) Hw1.ssh_args (inr 0) H).
Defined.

(** X3: when one of the two processes cannot be started, the exception of
    [subprocess.call] goes through: the failed call is the last event of the
    run, none of the messages of the script is printed, and the exit status
    is 1. *)
Theorem unstartable_process_aborts (w : World) (args : list string) (e : exn) :
  In (Call args (inl e)) (trace (main w)) ->
  (exists pre, trace (main w) = pre ++ [Call args (inl e)])
  /\ result (main w) = inl (Uncaught e)
  /\ printed Stderr (trace (main w)) = []
  /\ exit_status (result (main w)) = 1.
Proof.
  run_cases w; intros Hin.
  all: repeat match goal with
         | H : In _ (_ ++ _) |- _ => apply in_app_or in H; destruct H as [H | H]
         | Hq : quiet ?pre, H : In (Call _ _) ?pre |- _ =>
             exfalso; exact (quiet_no_call _ _ _ Hq H)
         | H : In _ (_ :: _) |- _ => destruct H as [H | H]
         | H : In _ [] |- _ => destruct H
         | H : Call _ _ = Call _ _ |- _ => injection H as ? ?
         | H : @eq (exn + Z) _ _ |- _ =>
             first [discriminate H | injection H as ?]
         | H : @eq event _ _ |- _ => discriminate H
         end; subst.
  - rewrite quiet_app_printed by assumption. repeat split. eauto.
  - rewrite quiet_app_printed by assumption. repeat split.
    exists (pre ++ [Call ("scp" :: a) (inr 0)]).
    rewrite <- app_assoc. reflexivity.
Qed.

(** The copy is made, and then [ssh] cannot be started. *)
Lemma unstartable_process_aborts_hw1 :
  In (Call ("ssh" :: Hw1.ssh_args) (inl OSError))
     (trace (main Hw1Edge.ssh_missing))
  /\ (exists pre,
         trace (main Hw1Edge.ssh_missing)
         = pre ++ [Call ("ssh" :: Hw1.ssh_args) (inl OSError)])
  /\ result (main Hw1Edge.ssh_missing) = inl (Uncaught OSError)
  /\ printed Stderr (trace (main Hw1Edge.ssh_missing)) = []
  /\ exit_status (result (main Hw1Edge.ssh_missing)) = 1.
Proof.
  assert (H : In (Call ("ssh" :: Hw1.ssh_args) (inl OSError))
                 (trace (main Hw1Edge.ssh_missing))).
  { vm_compute. auto 10. }
  split; [exact H |].
  exact (unstartable_process_aborts Hw1Edge.ssh_missing
           ("ssh" :: Hw1.ssh_args) OSError H).
Defined.

Lemma success_calls_scp (w : World) :
  result (main w) = inr tt ->
  exists a, In (Call ("scp" :: a) (inr 0)) (trace (main w)).
Proof.
  run_cases w; intros Hres; try discriminate Hres.
  exists a. apply in_or_app. right. left. reflexivity.
Qed.

(** X4: the script runs to its end exactly when its configuration is
    complete (an argument is given, both files are read, the homework file
    names a job, and each of the four options is answered with a string that
    is not empty) and both command lines return 0. *)
Theorem success_iff (w : World) :
  result (main w) = inr tt
  <-> exists homework_file job r,
        configured w homework_file job r
        /\ complete r
        /\ subprocess_call w (scp_command homework_file r) = inr 0
        /\ subprocess_call w (ssh_command r) = inr 0.
Proof.
  split.
  - intros Hres.
    destruct (success_calls_scp w Hres) as (a & Hin).
    destruct (scp_called_configured w a _ Hin) as (hf & job & r & Hc & Hr & _).
    exists hf, job, r. split; [exact Hc |]. split; [exact Hr |].
    destruct (main_configured w hf job r Hc Hr) as (cf & _ & Hmain).
    rewrite Hmain in Hres. unfold result in Hres. cbn [snd] in Hres.
    rewrite deploy_eq in Hres.
    destruct (subprocess_call w (scp_command hf r)) as [e | rc];
      [discriminate Hres |].
    destruct (rc =? 0)%Z eqn:Hrc; [| discriminate Hres].
    apply Z.eqb_eq in Hrc. subst rc.
    split; [reflexivity |].
    destruct (subprocess_call w (ssh_command r)) as [e | rc'];
      [discriminate Hres |].
    destruct (rc' =? 0)%Z eqn:Hrc'; [| discriminate Hres].
    apply Z.eqb_eq in Hrc'. subst rc'.
    reflexivity.
  - intros (hf & job & r & Hc & Hr & Hscp & Hssh).
    destruct (main_configured w hf job r Hc Hr) as (cf & _ & Hmain).
    rewrite Hmain, deploy_eq, Hscp. cbn [Z.eqb]. rewrite Hssh. reflexivity.
Qed.

(** Gather the configuration up to the job. *)
Ltac to_job Hfile Hcf Hhw Hcfg Hjob :=
  apply read_result in Hhw, Hcfg;
  unfold main; rewrite (argv_second _ _ Hfile);
  unfold misc.find_config_file, misc.get_option, index; rewrite Hcf, Hfile;
  go; rewrite Hhw; go; rewrite Hcfg; go; rewrite Hjob; go.

(** Take the non-empty answer for the option at place [k]. *)
Ltac answered Hbefore k :=
  let s := fresh "s" in
  let Hs := fresh "Hs" in
  let Ha := fresh "Ha" in
  destruct (Hbefore k _ _ ltac:(lia) eq_refl) as (s & Hs & Ha);
  rewrite Ha; go; rewrite (assert_passes _ _ Hs); go.

(** X5: the four options are asked for in the order [RemoteIP],
    [RemoteQueue], [RemoteUser], [RemoteNotifier], and the first one that is
    not answered with a non-empty string stops the script before any process
    is started: with the exception of [misc.get_option] when it raised, with
    the [AssertionError] that carries the message of that option when the
    answer is [None] or the empty string. *)
Theorem first_unanswered_option_stops
        (w : World) (homework_file job : string) (config : RawConfigParser)
        (n : nat) (option msg : string) (answer : exn + Datatypes.option string) :
  resolved w homework_file job config ->
  nth_error requirements n = Some (option, msg) ->
  (forall k o m, (k < n)%nat -> nth_error requirements k = Some (o, m) ->
                 exists s, s <> EmptyString
                           /\ misc_get_option w config job o = inr (Some s)) ->
  misc_get_option w config job option = answer ->
  (forall s, answer = inr (Some s) -> s = EmptyString) ->
  result (main w)
  = inl (Uncaught match answer with
                  | inl e => e
                  | inr _ => AssertionError msg
                  end)
  /\ calls (trace (main w)) = []
  /\ printed Stderr (trace (main w)) = [].
Proof.
  intros (Hfile & cf & hw & Hcf & Hhw & Hcfg & Hjob) Hn Hbefore Hanswer Hfalsy.
  to_job Hfile Hcf Hhw Hcfg Hjob.
  assert (Hstop : forall k : string -> M unit,
             (v <- lift answer ;; x <- assert_ v msg ;; k x)
             = ([], inl (Uncaught match answer with
                                  | inl e => e
                                  | inr _ => AssertionError msg
                                  end))).
  { intros k. destruct answer as [e | [s |]]; [reflexivity | | reflexivity].
    rewrite (Hfalsy s eq_refl). reflexivity. }
  destruct n as [| [| [| [| n]]]]; cbn in Hn;
    [| | | | destruct n; discriminate Hn]; injection Hn as <- <-.
  - rewrite Hanswer, Hstop. repeat split.
  - answered Hbefore 0%nat.
    rewrite Hanswer, Hstop. repeat split.
  - answered Hbefore 0%nat. answered Hbefore 1%nat.
    rewrite Hanswer, Hstop. repeat split.
  - answered Hbefore 0%nat. answered Hbefore 1%nat. answered Hbefore 2%nat.
    rewrite Hanswer, Hstop. repeat split.
Qed.

(** [misc.get_option] answers for [RemoteIP] and [RemoteQueue] and raises
    for [RemoteUser]. *)
Lemma first_unanswered_option_stops_hw1 :
  (resolved Hw1Edge.moody "hw.ini" "hw1" (Hw1.config "notify.sh")
   /\ nth_error requirements 2 = Some ("RemoteUser", "No remote user supplied")
   /\ (forall k o m, (k < 2)%nat -> nth_error requirements k = Some (o, m) ->
                     exists s, s <> EmptyString
                               /\ misc_get_option Hw1Edge.moody
                                    (Hw1.config "notify.sh") "hw1" o
                                  = inr (Some s))
   /\ misc_get_option Hw1Edge.moody (Hw1.config "notify.sh") "hw1" "RemoteUser"
      = inl (NoSectionError "hw1")
   /\ (forall s, @inl exn (Datatypes.option string) (NoSectionError "hw1")
                 = inr (Some s) -> s = EmptyString))
  /\ result (main Hw1Edge.moody) = inl (Uncaught (NoSectionError "hw1"))
  /\ calls (trace (main Hw1Edge.moody)) = []
  /\ printed Stderr (trace (main Hw1Edge.moody)) = [].
Proof.
  assert (H1 : resolved Hw1Edge.moody "hw.ini" "hw1" (Hw1.config "notify.sh")).
  { split; [reflexivity |].
    exists "/etc/vmchecker.ini", Hw1.homework. repeat split; reflexivity. }
  assert (H2 : nth_error requirements 2
               = Some ("RemoteUser", "No remote user supplied"))
    by reflexivity.
  assert (H3 : forall k o m,
             (k < 2)%nat -> nth_error requirements k = Some (o, m) ->
             exists s, s <> EmptyString
                       /\ misc_get_option Hw1Edge.moody
                            (Hw1.config "notify.sh") "hw1" o
                          = inr (Some s)).
  { intros k o m Hk Hnth.
    destruct k as [| [| k]]; [| | lia]; injection Hnth as <- <-.
    - exists "10.0.0.5". split; [discriminate | reflexivity].
    - exists "/srv/queue". split; [discriminate | reflexivity]. }
  assert (H4 : misc_get_option Hw1Edge.moody (Hw1.config "notify.sh")
                 "hw1" "RemoteUser"
               = inl (NoSectionError "hw1")) by reflexivity.
  assert (H5 : forall s, @inl exn (Datatypes.option string) (NoSectionError "hw1")
                         = inr (Some s) -> s = EmptyString)
    by (intros s H; discriminate H).
  split; [exact (conj H1 (conj H2 (conj H3 (conj H4 H5)))) |].
  exact (first_unanswered_option_stops Hw1Edge.moody "hw.ini" "hw1"
           (Hw1.config "notify.sh") 2 "RemoteUser" "No remote user supplied"
           (inl (NoSectionError "hw1")) H1 H2 H3 H4 H5).
Defined.

(** X6: with a complete configuration whose notifier does not begin with
    [/], the two command lines are [scp <file> <user>@<ip>:<queue>] and, when
    that one returned 0, [ssh <user>@<ip> <queue>/<notifier>]; a queue that
    already ends with [/] gets no second one. *)
Theorem relative_notifier_joins_queue
        (w : World) (homework_file job : string) (r : Remote) :
  configured w homework_file job r ->
  complete r ->
  startswith (remote_notifier r) "/" = false ->
  calls (trace (main w))
  = ["scp"; homework_file;
     remote_user r +:+ "@" +:+ remote_ip r +:+ ":" +:+ remote_queue r] ::
      match subprocess_call w (scp_command homework_file r) with
      | inr 0 =>
          [["ssh"; remote_user r +:+ "@" +:+ remote_ip r;
            if endswith_char (remote_queue r) "/"
            then remote_queue r +:+ remote_notifier r
            else remote_queue r +:+ "/" +:+ remote_notifier r]]
      | _ => []
      end.
Proof.
  intros Hc Hr Hrel.
  rewrite (configured_calls w homework_file job r Hc Hr).
  unfold scp_command at 1, ssh_command, os.path.join. rewrite Hrel.
  destruct Hr as (_ & Nq & _). apply String.eqb_neq in Nq. rewrite Nq.
  reflexivity.
Qed.

(** The queue is [/srv/queue/]. *)
Lemma relative_notifier_joins_queue_hw1 :
  (configured Hw1Edge.slashed_world "hw.ini" "hw1" Hw1Edge.slashed
   /\ complete Hw1Edge.slashed
   /\ startswith (remote_notifier Hw1Edge.slashed) "/" = false)
  /\ calls (trace (main Hw1Edge.slashed_world))
     = [["scp"; "hw.ini"; "grader@10.0.0.5:/srv/queue/"];
        ["ssh"; "grader@10.0.0.5"; "/srv/queue/notify.sh"]].
Proof.
  assert (H1 : configured Hw1Edge.slashed_world "hw.ini" "hw1" Hw1Edge.slashed).
  { exists Hw1Edge.slashed_config. split; [| repeat split; reflexivity].
    split; [reflexivity |].
    exists "/etc/vmchecker.ini", Hw1.homework. repeat split; reflexivity. }
  assert (H2 : complete Hw1Edge.slashed) by (repeat split; discriminate).
  assert (H3 : startswith (remote_notifier Hw1Edge.slashed) "/" = false)
    by reflexivity.
  split; [exact (conj H1 (conj H2 H3)) |].
  exact (relative_notifier_joins_queue Hw1Edge.slashed_world "hw.ini" "hw1"
           Hw1Edge.slashed H1 H2 H3).
Defined.

(** X7: a homework file that cannot be opened is not reported as such.
    [read] skips it, the global file is read all the same, and the script is
    then stopped by the failed lookup of [Job] in a parser that holds
    nothing. *)
Theorem unreadable_homework_file
        (w : World) (homework_file config_file : string)
        (config : RawConfigParser) :
  nth_error (argv w) 1 = Some homework_file ->
  files w homework_file = Unreadable ->
  misc_find_config_file w "vmchecker.ini" = inr config_file ->
  loads w config_file config ->
  main w
  = ([FindConfigFile "vmchecker.ini"; ReadFile homework_file;
      ReadFile config_file],
     inl (Uncaught (NoOptionError "Job" "DEFAULT"))).
Proof.
  intros Hfile Hnone Hcf Hcfg.
  assert (Hhw : loads w homework_file new).
  { unfold loads, read. rewrite Hnone. reflexivity. }
  to_job Hfile Hcf Hhw Hcfg (get_default_missing new "Job" eq_refl eq_refl).
  reflexivity.
Qed.

Lemma unreadable_homework_file_hw1 :
  (nth_error (argv Hw1Edge.no_file) 1 = Some "hw.ini"
   /\ files Hw1Edge.no_file "hw.ini" = Unreadable
   /\ misc_find_config_file Hw1Edge.no_file "vmchecker.ini"
      = inr "/etc/vmchecker.ini"
   /\ loads Hw1Edge.no_file "/etc/vmchecker.ini" (Hw1.config "notify.sh"))
  /\ main Hw1Edge.no_file
     = ([FindConfigFile "vmchecker.ini"; ReadFile "hw.ini";
         ReadFile "/etc/vmchecker.ini"],
        inl (Uncaught (NoOptionError "Job" "DEFAULT"))).
Proof.
  split; [repeat split; reflexivity |].
  apply (unreadable_homework_file Hw1Edge.no_file "hw.ini" "/etc/vmchecker.ini"
           (Hw1.config "notify.sh"));
    reflexivity.
Defined.

(** X8: a configuration file that is not in INI format stops the script
    with the [ParsingError] of that file as soon as it is read: for the
    homework file before the global file is opened, for the global file
    before [Job] is looked up in the homework file. *)
Theorem malformed_file_stops
        (w : World) (homework_file config_file : string) :
  nth_error (argv w) 1 = Some homework_file ->
  misc_find_config_file w "vmchecker.ini" = inr config_file ->
  files w homework_file = Malformed \/ files w config_file = Malformed ->
  main w
  = match files w homework_file with
    | Malformed =>
        ([FindConfigFile "vmchecker.ini"; ReadFile homework_file],
         inl (Uncaught (ParsingError homework_file)))
    | _ =>
        ([FindConfigFile "vmchecker.ini"; ReadFile homework_file;
          ReadFile config_file],
         inl (Uncaught (ParsingError config_file)))
    end.
Proof.
  intros Hfile Hcf Hbad.
  unfold main. rewrite (argv_second _ _ Hfile).
  unfold misc.find_config_file, index, read. rewrite Hcf, Hfile. go.
  destruct (files w homework_file) eqn:Hhw; go; try reflexivity.
  all: destruct Hbad as [Hbad | Hbad]; [discriminate Hbad |].
  all: rewrite Hbad; reflexivity.
Qed.

(** The global file is malformed and the homework file names no job. *)
Lemma malformed_file_stops_hw1 :
  (nth_error (argv Hw1Edge.bad_config) 1 = Some "hw.ini"
   /\ misc_find_config_file Hw1Edge.bad_config "vmchecker.ini"
      = inr "/etc/vmchecker.ini"
   /\ (files Hw1Edge.bad_config "hw.ini" = Malformed
       \/ files Hw1Edge.bad_config "/etc/vmchecker.ini" = Malformed))
  /\ main Hw1Edge.bad_config
     = ([FindConfigFile "vmchecker.ini"; ReadFile "hw.ini";
         ReadFile "/etc/vmchecker.ini"],
        inl (Uncaught (ParsingError "/etc/vmchecker.ini"))).
Proof.
  assert (H : files Hw1Edge.bad_config "hw.ini" = Malformed
              \/ files Hw1Edge.bad_config "/etc/vmchecker.ini" = Malformed)
    by (right; reflexivity).
  split; [repeat split; try reflexivity; exact H |].
  exact (malformed_file_stops Hw1Edge.bad_config "hw.ini" "/etc/vmchecker.ini"
           eq_refl eq_refl H).
Defined.

(** X9: the locator is called before the argument is looked at.  When it
    raises, its exception stops the script with no file read. *)
Theorem locator_failure_stops (w : World) (e : exn) :
  length (argv w) <> 1%nat ->
  misc_find_config_file w "vmchecker.ini" = inl e ->
  main w = ([FindConfigFile "vmchecker.ini"], inl (Uncaught e)).
Proof.
  intros Hlen Hcf. apply Nat.eqb_neq in Hlen.
  unfold main. rewrite Hlen. unfold misc.find_config_file. rewrite Hcf.
  reflexivity.
Qed.

Lemma locator_failure_stops_hw1 :
  (length (argv Hw1Edge.lost) <> 1%nat
   /\ misc_find_config_file Hw1Edge.lost "vmchecker.ini"
      = inl (OtherError "IOError"))
  /\ main Hw1Edge.lost
     = ([FindConfigFile "vmchecker.ini"], inl (Uncaught (OtherError "IOError"))).
Proof.
  assert (H : length (argv Hw1Edge.lost) <> 1%nat) by discriminate.
  split; [split; [exact H | reflexivity] |].
  exact (locator_failure_stops Hw1Edge.lost (OtherError "IOError") H eq_refl).
Defined.

(** X10: an empty [argv] gets past the usage check, which tests for a
    length of exactly 1.  The script calls the locator and is then stopped
    by the [IndexError] of [sys.argv[1]], with no usage line and no file
    read. *)
Theorem empty_argv_index_error (w : World) (config_file : string) :
  argv w = [] ->
  misc_find_config_file w "vmchecker.ini" = inr config_file ->
  main w = ([FindConfigFile "vmchecker.ini"], inl (Uncaught IndexError)).
Proof.
  intros Hargv Hcf.
  unfold main, misc.find_config_file. rewrite Hargv, Hcf. reflexivity.
Qed.

Lemma empty_argv_index_error_hw1 :
  (argv (with_argv (Hw1.std 0 0) []) = []
   /\ misc_find_config_file (with_argv (Hw1.std 0 0) []) "vmchecker.ini"
      = inr "/etc/vmchecker.ini")
  /\ main (with_argv (Hw1.std 0 0) [])
     = ([FindConfigFile "vmchecker.ini"], inl (Uncaught IndexError)).
Proof.
  split; [split; reflexivity |].
  exact (empty_argv_index_error (with_argv (Hw1.std 0 0) [])
           "/etc/vmchecker.ini" eq_refl eq_refl).
Defined.

Lemma deploy_reads (w : World) (homework_file : string) (r : Remote) :
  reads (trace (deploy w homework_file r)) = [].
Proof.
  rewrite deploy_eq.
  destruct (subprocess_call w (scp_command homework_file r)) as [e | rc];
    [reflexivity |].
  destruct (rc =? 0)%Z; [| reflexivity].
  destruct (subprocess_call w (ssh_command r)) as [e | rc']; [reflexivity |].
  destruct (rc' =? 0)%Z; reflexivity.
Qed.

Lemma deploy_calls_ssh (w : World) (homework_file : string) (r : Remote)
      (b : list string) (res : exn + Z) :
  In (Call ("ssh" :: b) res) (trace (deploy w homework_file r)) ->
  calls (trace (deploy w homework_file r))
  = [scp_command homework_file r; ssh_command r].
Proof.
  rewrite deploy_eq.
  destruct (subprocess_call w (scp_command homework_file r)) as [e | rc].
  { intros Hin. unfold trace, scp_command in Hin. cbn [fst] in Hin. in_cases. }
  destruct (rc =? 0)%Z.
  2: { intros Hin. unfold trace, scp_command in Hin. cbn [fst] in Hin.
       in_cases. }
  destruct (subprocess_call w (ssh_command r)) as [e | rc']; [reflexivity |].
  destruct (rc' =? 0)%Z; reflexivity.
Qed.

Lemma ssh_needs_scp (w : World) (b : list string) (res : exn + Z) :
  In (Call ("ssh" :: b) res) (trace (main w)) ->
  exists a, In (Call ("scp" :: a) (inr 0)) (trace (main w)).
Proof.
  run_cases w; intros Hin; find_call.
  all: exists a; apply in_or_app; right; left; reflexivity.
Qed.

(** X11: the file handed to [scp] is the file that was parsed as the
    homework file, [argv[1]]; by the time [scp] is called the script has read
    that file and then the global file, and it reads no file afterwards. *)
Theorem copied_file_is_parsed_file
        (w : World) (args : list string) (res : exn + Z) :
  In (Call ("scp" :: args) res) (trace (main w)) ->
  exists homework_file config_file target,
    nth_error (argv w) 1 = Some homework_file
    /\ misc_find_config_file w "vmchecker.ini" = inr config_file
    /\ args = [homework_file; target]
    /\ reads (trace (main w)) = [homework_file; config_file].
Proof.
  intros Hin.
  destruct (scp_called_configured w args res Hin)
    as (hf & job & r & Hc & Hr & Hargs).
  destruct (main_configured w hf job r Hc Hr) as (cf & Hcf & Hmain).
  exists hf, cf,
    (remote_user r +:+ "@" +:+ remote_ip r +:+ ":" +:+ remote_queue r).
  split; [destruct Hc as (cfg & (Hfile & _) & _); exact Hfile |].
  split; [exact Hcf |]. split.
  - unfold scp_command in Hargs. injection Hargs as Hargs. exact Hargs.
  - rewrite Hmain. unfold trace at 1. cbn [fst app reads].
    rewrite deploy_reads. reflexivity.
Qed.

Lemma copied_file_is_parsed_file_hw1 :
  In (Call ("scp" :: Hw1.scp_args) (inr 0)) (trace (main (Hw1.std 0 0)))
  /\ exists homework_file config_file target,
      nth_error (argv (Hw1.std 0 0)) 1 = Some homework_file
      /\ misc_find_config_file (Hw1.std 0 0) "vmchecker.ini" = inr config_file
      /\ Hw1.scp_args = [homework_file; target]
      /\ reads (trace (main (Hw1.std 0 0))) = [homework_file; config_file].
Proof.
  assert (H : In (Call ("scp" :: Hw1.scp_args) (inr 0))
                 (trace (main (Hw1.std 0 0)))).
  { vm_compute. auto 10. }
  split; [exact H |].
  exact (copied_file_is_parsed_file (Hw1.std 0 0) Hw1.scp_args (inr 0) H).
Defined.

(** X12: whenever [ssh] is called, the two command lines of the run are
    built from one complete configuration: [scp] copies to the queue of the
    same user and machine on which [ssh] then runs the notifier. *)
Theorem both_commands_from_one_configuration
        (w : World) (b : list string) (res : exn + Z) :
  In (Call ("ssh" :: b) res) (trace (main w)) ->
  exists homework_file job r,
    configured w homework_file job r
    /\ complete r
    /\ calls (trace (main w))
       = [ ["scp"; homework_file;
            remote_user r +:+ "@" +:+ remote_ip r +:+ ":" +:+ remote_queue r];
           ["ssh"; remote_user r +:+ "@" +:+ remote_ip r;
            os.path.join (remote_queue r) (remote_notifier r)] ].
Proof.
  intros Hin.
  destruct (ssh_needs_scp w b res Hin) as (a & Hscp).
  destruct (scp_called_configured w a _ Hscp)
    as (hf & job & r & Hc & Hr & _).
  destruct (main_configured w hf job r Hc Hr) as (cf & _ & Hmain).
  exists hf, job, r. split; [exact Hc |]. split; [exact Hr |].
  rewrite Hmain in Hin |- *. unfold trace at 1 in Hin. unfold trace at 1.
  cbn [fst] in Hin |- *.
  apply in_app_or in Hin. destruct Hin as [Hin | Hin]; [in_cases |].
  rewrite calls_app, (deploy_calls_ssh w hf r b res Hin).
  reflexivity.
Qed.

Lemma both_commands_from_one_configuration_hw1 :
  In (Call ("ssh" :: Hw1.ssh_args) (inr 0)) (trace (main (Hw1.std 0 0)))
  /\ exists homework_file job r,
      configured (Hw1.std 0 0) homework_file job r
      /\ complete r
      /\ calls (trace (main (Hw1.std 0 0)))
         = [ ["scp"; homework_file;
              remote_user r +:+ "@" +:+ remote_ip r +:+ ":" +:+ remote_queue r];
             ["ssh"; remote_user r +:+ "@" +:+ remote_ip r;
              os.path.join (remote_queue r) (remote_notifier r)] ].
Proof.
  assert (H : In (Call ("ssh" :: Hw1.ssh_args) (inr 0))
                 (trace (main (Hw1.std 0 0)))).
  { vm_compute. auto 10. }
  split; [exact H |].
  exact (both_commands_from_one_configuration (Hw1.std 0 0) Hw1.ssh_args
           (inr 0) H).
Defined.

(** X14: no retry.  A run starts no process, or [scp] once, or [scp] once
    and then [ssh] once; no other program is ever started. *)
Theorem at_most_two_processes (w : World) :
  calls (trace (main w)) = []
  \/ (exists a, calls (trace (main w)) = ["scp" :: a])
  \/ (exists a b, calls (trace (main w)) = ["scp" :: a; "ssh" :: b]).
Proof.
  run_cases w; rewrite ?quiet_app_calls by assumption; cbn [calls]; eauto.
  left. apply H.
Qed.


(** C10: with two or more arguments there is no usage error and the
    further arguments are ignored: the run is the run with [argv[1]] alone.
    The script goes on with [argv[1]] as the homework file: it calls the
    locator, reads [argv[1]] as soon as the locator has answered, hands
    [argv[1]] to [scp] and to no other file, and with a complete
    configuration it starts [scp] on [argv[1]] and then, when that one
    returned 0, [ssh]. *)
Theorem extra_arguments_ignored
        (w : World) (prog homework_file extra : string) (rest : list string) :
  argv w = prog :: homework_file :: extra :: rest ->
  main w = main (with_argv w [prog; homework_file])
  /\ (forall out name, ~ In (Print out (usage_msg name)) (trace (main w)))
  /\ (forall q, In (ReadFile q) (trace (main w)) ->
                q = homework_file
                \/ misc_find_config_file w "vmchecker.ini" = inr q)
  /\ (exists events,
         trace (main w) = FindConfigFile "vmchecker.ini" :: events)
  /\ (forall config_file,
         misc_find_config_file w "vmchecker.ini" = inr config_file ->
         exists events,
           trace (main w)
           = FindConfigFile "vmchecker.ini" :: ReadFile homework_file :: events)
  /\ (forall args res,
         In (Call ("scp" :: args) res) (trace (main w)) ->
         exists target, args = [homework_file; target])
  /\ (forall job r,
         configured w homework_file job r ->
         complete r ->
         calls (trace (main w))
         = scp_command homework_file r ::
             match subprocess_call w (scp_command homework_file r) with
             | inr 0 => [ssh_command r]
             | _ => []
             end).
Proof.
  intros Hargv. repeat apply conj.
  - unfold main, misc.find_config_file, misc.get_option, subprocess.call, read.
    cbn [argv with_argv misc_find_config_file misc_get_option files
         subprocess_call].
    rewrite Hargv. reflexivity.
  - intros out name. unfold main. rewrite Hargv. exec; intros Hin; in_cases.
  - intros q. unfold main. rewrite Hargv. exec; intros Hin; in_cases; auto.
  - unfold main. rewrite Hargv. exec; eexists; reflexivity.
  - intros config_file Hcf. unfold main, misc.find_config_file.
    rewrite Hargv, Hcf. exec; eexists; reflexivity.
  - intros args res Hin.
    destruct (scp_called_configured w args res Hin)
      as (hf & job & r & (cfg & (Hfile & _) & _) & _ & Hargs).
    rewrite Hargv in Hfile. injection Hfile as <-.
    unfold scp_command in Hargs. injection Hargs as ->. eexists. reflexivity.
  - intros job r Hc Hr. exact (configured_calls w homework_file job r Hc Hr).
Qed.

(** Two arguments too many, and the run succeeds on [hw.ini]. *)
Lemma extra_arguments_ignored_hw1 :
  argv Hw1.crowded_world = ["remote_check.py"; "hw.ini"; "other.ini"; "-v"]
  /\ main Hw1.crowded_world
     = main (with_argv Hw1.crowded_world ["remote_check.py"; "hw.ini"])
  /\ (forall out name,
        ~ In (Print out (usage_msg name)) (trace (main Hw1.crowded_world)))
  /\ (forall q, In (ReadFile q) (trace (main Hw1.crowded_world)) ->
                q = "hw.ini"
                \/ misc_find_config_file Hw1.crowded_world "vmchecker.ini"
                   = inr q)
  /\ (exists events,
         trace (main Hw1.crowded_world)
         = FindConfigFile "vmchecker.ini" :: events)
  /\ (forall config_file,
         misc_find_config_file Hw1.crowded_world "vmchecker.ini"
         = inr config_file ->
         exists events,
           trace (main Hw1.crowded_world)
           = FindConfigFile "vmchecker.ini" :: ReadFile "hw.ini" :: events)
  /\ (forall args res,
         In (Call ("scp" :: args) res) (trace (main Hw1.crowded_world)) ->
         exists target, args = ["hw.ini"; target])
  /\ (forall job r,
         configured Hw1.crowded_world "hw.ini" job r ->
         complete r ->
         calls (trace (main Hw1.crowded_world))
         = scp_command "hw.ini" r ::
             match subprocess_call Hw1.crowded_world
                     (scp_command "hw.ini" r) with
             | inr 0 => [ssh_command r]
             | _ => []
             end).
Proof.
  split; [reflexivity |].
  apply (extra_arguments_ignored Hw1.crowded_world
           "remote_check.py" "hw.ini" "other.ini" ["-v"]).
  reflexivity.
Defined.

(** The run with the two arguments too many, computed. *)
Example run_crowded :
  main Hw1.crowded_world
  = ([FindConfigFile "vmchecker.ini"; ReadFile "hw.ini";
      ReadFile "/etc/vmchecker.ini";
      Call ["scp"; "hw.ini"; "grader@10.0.0.5:/srv/queue"] (inr 0);
      Call ["ssh"; "grader@10.0.0.5"; "/srv/queue/notify.sh"] (inr 0);
      Print Stderr "Tema a fost copiata cu succes"],
     inr tt).
Proof. vm_compute. reflexivity. Qed.
